(** * PIC16F1704_APW12_1.2_V71_skeleton.c: the decompiled firmware skeleton

    The translation unit declares ten [void f(void)] functions with empty
    bodies and a [main] that stores three literals into memory-mapped
    special-function registers and then spins in [while(1) { }].

    The file is embedded as a table of function bodies over the handful
    of statement forms the source uses, executed by a small-step machine
    on the device's data memory.  Stores to the (volatile) registers are
    also logged, in program order, in a trace of observable events. *)

From stdpp Require Import gmap strings list relations.

Set Warnings "-register-all".

Open Scope Z_scope.

(** ** The device header *)

(** [<xc.h>], which declares the special-function registers, is the
    compiler's device header and is not part of the repository.  The
    source names three memory-mapped registers, [OSCCON], [ANSELA] and
    [ANSELC]; the header fixes their data-memory addresses.  The
    embedding takes the three addresses as parameters and asks only that
    they name three different registers. *)
Class DeviceHeader := {
  OSCCON : N;
  ANSELA : N;
  ANSELC : N;
  sfr_distinct : NoDup [OSCCON; ANSELA; ANSELC]
}.

(** The addresses of the PIC16F1704 data sheet (bank 1 and bank 3). *)
#[export] Instance pic16f1704 : DeviceHeader :=
  {| OSCCON := 0x099; ANSELA := 0x18C; ANSELC := 0x18E;
     sfr_distinct := bool_decide_unpack (NoDup [0x099; 0x18C; 0x18E]%N) I |}.

(** ** Statements *)

(** The statement forms that occur in the source: a store of an integer
    literal to a register, a compound statement, and [while] over an
    integer-literal condition.  Calls of [void f(void)] functions are the
    only other form the ten declared functions could be used in. *)
Inductive stmt : Type :=
  | SAssign (a : N) (v : Z)            (* REG = literal;      *)
  | SCall (f : string)                 (* f();                *)
  | SWhile (cond : Z) (body : stmt)    (* while (literal) ... *)
  | SBlock (body : list stmt).         (* { s1 s2 ... }       *)

Notation "r ::= v" := (SAssign r v) (at level 60, no associativity).

(** A translation unit: the function definitions, in source order. *)
Definition program : Type := list (string * stmt).

Fixpoint find_fun (p : program) (f : string) : option stmt :=
  match p with
  | [] => None
  | (g, b) :: p' => if String.eqb f g then Some b else find_fun p' f
  end.

(** The functions a statement calls, in textual order. *)
Fixpoint calls (s : stmt) : list string :=
  match s with
  | SAssign _ _ => []
  | SCall f => [f]
  | SWhile _ b => calls b
  | SBlock l => concat (map calls l)
  end.

(** The registers a statement stores to, in textual order. *)
Fixpoint stores (s : stmt) : list N :=
  match s with
  | SAssign a _ => [a]
  | SCall _ => []
  | SWhile _ b => stores b
  | SBlock l => concat (map stores l)
  end.

(** ** The source file *)

Section Firmware.
Context `{DeviceHeader}.

Definition func_0674 : stmt := SBlock [].
Definition func_0193 : stmt := SBlock [].
Definition func_0124 : stmt := SBlock [].
Definition func_0380 : stmt := SBlock [].
Definition func_05EE : stmt := SBlock [].
Definition func_0264 : stmt := SBlock [].
Definition func_0151 : stmt := SBlock [].
Definition func_01CA : stmt := SBlock [].
Definition func_0746 : stmt := SBlock [].
Definition func_0118 : stmt := SBlock [].

(** [main], lines 80 to 82: system initialization. *)
Definition main_init : list stmt :=
  [ OSCCON ::= 0x70;
    ANSELA ::= 0x00;
    ANSELC ::= 0x00 ].

(** [main], lines 85 to 87: the main loop. *)
Definition main_loop : stmt := SWhile 1 (SBlock []).

Definition main : stmt := SBlock (main_init ++ [main_loop]).

(** The ten functions above [main], with their bodies. *)
Definition stubs : program :=
  [ ("func_0674", func_0674); ("func_0193", func_0193);
    ("func_0124", func_0124); ("func_0380", func_0380);
    ("func_05EE", func_05EE); ("func_0264", func_0264);
    ("func_0151", func_0151); ("func_01CA", func_01CA);
    ("func_0746", func_0746); ("func_0118", func_0118) ]%string.

Definition firmware : program := stubs ++ [("main"%string, main)].

End Firmware.

(** ** The machine *)

(** Registers are eight bits wide: a store keeps the low byte. *)
Definition wrap8 (v : Z) : Z := v mod 2 ^ 8.

(** An observable action: a store to a memory-mapped register. *)
Inductive event : Type :=
  | Write (a : N) (v : Z).

(** A machine configuration: the statements still to run (the head is
    the next one), the data memory, and the stores made so far, oldest
    first. *)
Record config : Type := Config {
  cont : list stmt;
  mem : gmap N Z;
  trace : list event
}.

Inductive error : Type :=
  | UndefinedFunction (f : string).

(** What running the machine gives: it is still running, the code that
    was entered has returned, or it has failed. *)
Inductive outcome : Type :=
  | Running (c : config)
  | Returned (m : gmap N Z) (t : list event)
  | Failed (e : error).

Definition step (p : program) (c : config) : outcome :=
  match cont c with
  | [] => Returned (mem c) (trace c)
  | SAssign a v :: k =>
      Running (Config k (<[a := wrap8 v]> (mem c))
                        (trace c ++ [Write a (wrap8 v)]))
  | SCall f :: k =>
      match find_fun p f with
      | Some b => Running (Config (b :: k) (mem c) (trace c))
      | None => Failed (UndefinedFunction f)
      end
  | SWhile e b :: k =>
      if decide (e = 0)
      then Running (Config k (mem c) (trace c))
      else Running (Config (b :: SWhile e b :: k) (mem c) (trace c))
  | SBlock l :: k => Running (Config (l ++ k) (mem c) (trace c))
  end.

Fixpoint run (p : program) (n : nat) (c : config) : outcome :=
  match n with
  | O => Running c
  | S n' =>
      match step p c with
      | Running c' => run p n' c'
      | o => o
      end
  end.

(** The same machine as a relation between configurations. *)
Inductive sstep (p : program) : config → config → Prop :=
  | sstep_assign a v k m t :
      sstep p (Config (SAssign a v :: k) m t)
              (Config k (<[a := wrap8 v]> m) (t ++ [Write a (wrap8 v)]))
  | sstep_call f b k m t :
      find_fun p f = Some b →
      sstep p (Config (SCall f :: k) m t) (Config (b :: k) m t)
  | sstep_while_exit e b k m t :
      e = 0 →
      sstep p (Config (SWhile e b :: k) m t) (Config k m t)
  | sstep_while_iter e b k m t :
      e ≠ 0 →
      sstep p (Config (SWhile e b :: k) m t)
              (Config (b :: SWhile e b :: k) m t)
  | sstep_block l k m t :
      sstep p (Config (SBlock l :: k) m t) (Config (l ++ k) m t).

(** Running a statement, and calling a function, from a given memory. *)
Definition exec (p : program) (fuel : nat) (s : stmt) (m : gmap N Z) : outcome :=
  run p fuel (Config [s] m []).

Definition call (p : program) (fuel : nat) (f : string) (m : gmap N Z) : outcome :=
  exec p fuel (SCall f) m.

(** The memory a call leaves behind once it has returned. *)
Definition denote (p : program) (fuel : nat) (f : string) (m : gmap N Z)
  : option (gmap N Z) :=
  match call p fuel f m with
  | Returned m' _ => Some m'
  | _ => None
  end.

(** The next statement to run is a [while]: the machine is at the top
    of a loop, about to test its condition. *)
Definition at_while (c : config) : bool :=
  match cont c with
  | SWhile _ _ :: _ => true
  | _ => false
  end.

(** What an onlooker sees of a running machine: whether it is at the top
    of a loop, and the stores made so far. *)
Definition snapshot (o : outcome) : option (bool * list event) :=
  match o with
  | Running c => Some (at_while c, trace c)
  | _ => None
  end.

(** Memory and trace of an outcome that is not a failure. *)
Definition observed (o : outcome) : option (gmap N Z * list event) :=
  match o with
  | Running c => Some (mem c, trace c)
  | Returned m t => Some (m, t)
  | Failed _ => None
  end.

Section Observations.
Context `{DeviceHeader}.

(** The stores of lines 80 to 82, as events. *)
Definition startup_writes : list event :=
  [ Write OSCCON 0x70; Write ANSELA 0x00; Write ANSELC 0x00 ].

(** The memory after lines 80 to 82. *)
Definition startup_mem (m : gmap N Z) : gmap N Z :=
  <[ANSELC := 0x00]> (<[ANSELA := 0x00]> (<[OSCCON := 0x70]> m)).

(** The configuration in which [main] first reaches its loop. *)
Definition loop_entry (m : gmap N Z) : config :=
  Config [main_loop] (startup_mem m) startup_writes.

(** The registers hold their startup values. *)
Definition initialized (m : gmap N Z) : Prop :=
  m !! OSCCON = Some 0x70 ∧ m !! ANSELA = Some 0x00 ∧ m !! ANSELC = Some 0x00.

(** The two register writes of the startup, as the source comments
    them: the internal-oscillator configuration, and the switch of the
    ports to digital I/O, which clears the analog-select register of
    either port. *)
Definition oscillator_write (e : event) : Prop := e = Write OSCCON 0x70.

Definition analog_select_clear (e : event) : Prop :=
  ∃ a, a ∈ [ANSELA; ANSELC] ∧ e = Write a 0x00.

(** [m'] differs from [m] at most in the three registers [main] names. *)
Definition same_elsewhere (m m' : gmap N Z) : Prop :=
  ∀ a : N, a ∉ [OSCCON; ANSELA; ANSELC] → m' !! a = m !! a.

End Observations.

(** A program for the PIC16F1704 that redefines one of the ten functions,
    to store to a register and to call itself, and keeps [main]. *)
Definition patched : program :=
  [ ("func_0674"%string, SBlock [OSCCON ::= 0xFF; SCall "func_0674"]);
    ("main"%string, main) ].

(** Where the loop of [main] stands [n] steps after it was reached, with
    [K] the code waiting behind it: at the test on even steps, in the
    empty body on odd ones. *)
Definition loop_phase (n : nat) (K : list stmt) : list stmt :=
  if Nat.even n then main_loop :: K else SBlock [] :: main_loop :: K.

(** The stores a list of statements spells out, as events in textual
    order. *)
Definition literal_stores (l : list stmt) : list event :=
  l ≫= λ s, match s with
            | SAssign a v => [Write a v]
            | _ => []
            end.

(** * Properties *)

(** ** The machine in general *)

Lemma run_add p n k c :
  run p (n + k) c =
  match run p n c with
  | Running c' => run p k c'
  | o => o
  end.
Proof.
  revert c. induction n as [|n IH]; intros c; simpl; [done|].
  destruct (step p c); auto.
Qed.

Lemma step_sstep p c c' : step p c = Running c' ↔ sstep p c c'.
Proof.
  split.
  - destruct c as [[|[a v|f|e b|l] k] m t]; unfold step; simpl.
    + discriminate.
    + intros [= <-]. constructor.
    + destruct (find_fun p f) eqn:Hf; [|discriminate].
      intros [= <-]. by constructor.
    + case_decide; intros [= <-]; by constructor.
    + intros [= <-]. constructor.
  - destruct 1; unfold step; simpl; try done.
    + by rewrite H.
    + by rewrite decide_True.
    + by rewrite decide_False.
Qed.

Lemma run_nsteps p n c c' : run p n c = Running c' ↔ nsteps (sstep p) n c c'.
Proof.
  revert c. induction n as [|n IH]; intros c; simpl.
  - split; [intros [= <-]; constructor | by inversion 1].
  - split.
    + destruct (step p c) as [c1| |] eqn:Hs; try discriminate.
      intros Hr. econstructor; [by apply step_sstep | by apply IH].
    + inversion 1 as [|? ? c1 ? Hs Hr]; subst.
      apply step_sstep in Hs. rewrite Hs. by apply IH.
Qed.

Lemma calls_block_nil l :
  calls (SBlock l) = [] → Forall (λ s, calls s = []) l.
Proof.
  simpl. induction l as [|s l IH]; simpl; [constructor|].
  intros [Hs Hl]%app_eq_nil. constructor; auto.
Qed.

(** Code that makes no call runs the same under every program. *)
Lemma run_call_free p1 p2 n c :
  Forall (λ s, calls s = []) (cont c) → run p1 n c = run p2 n c.
Proof.
  revert c. induction n as [|n IH]; intros [k m t] Hk; simpl in *; [done|].
  destruct k as [|[a v|f|e b|l] k]; unfold step; simpl; try done;
    apply Forall_cons in Hk as [Hs Hk].
  - by apply IH.
  - discriminate.
  - case_decide; apply IH; simpl; auto.
  - apply IH; simpl. apply Forall_app. split; [by apply calls_block_nil|done].
Qed.


(** ** The firmware *)

Section FirmwareProperties.
Context `{DeviceHeader}.

Lemma sfr_ne : OSCCON ≠ ANSELA ∧ OSCCON ≠ ANSELC ∧ ANSELA ≠ ANSELC.
Proof.
  pose proof sfr_distinct as Hd.
  rewrite !NoDup_cons, !elem_of_cons in Hd. tauto.
Qed.

Lemma startup_mem_initialized m : initialized (startup_mem m).
Proof.
  destruct sfr_ne as (Hab & Hac & Hbc).
  unfold initialized, startup_mem. by simplify_map_eq.
Qed.

Lemma startup_mem_elsewhere m : same_elsewhere m (startup_mem m).
Proof.
  intros a Ha. rewrite !elem_of_cons in Ha.
  unfold startup_mem. rewrite !lookup_insert_ne; naive_solver.
Qed.

(** Five steps take [main] from its call to the top of its loop. *)
Lemma main_reaches_loop m : call firmware 5 "main" m = Running (loop_entry m).
Proof. reflexivity. Qed.

(** One trip round [while(1) { }] is two steps: the test, then the empty
    body.  It gives back the configuration it started from. *)
Lemma loop_iteration p K m t :
  run p 2 (Config (main_loop :: K) m t) = Running (Config (main_loop :: K) m t).
Proof. reflexivity. Qed.

Lemma loop_spins p k K m t :
  ∃ c, run p k (Config (main_loop :: K) m t) = Running c
       ∧ mem c = m ∧ trace c = t
       ∧ (cont c = main_loop :: K ∨ cont c = SBlock [] :: main_loop :: K).
Proof.
  induction k as [k IH] using lt_wf_ind.
  destruct k as [|[|k]].
  - eexists. simpl. eauto.
  - eexists. simpl. eauto.
  - change (S (S k)) with (2 + k)%nat.
    rewrite run_add, loop_iteration. apply IH. lia.
Qed.

(** A call of any of the ten functions: two steps to enter and leave the
    empty body, a third to return. *)
Lemma stub_call_returns n m :
  Forall (λ f, call firmware (3 + n) f m = Returned m []) stubs.*1.
Proof. repeat constructor. Qed.

Lemma stub_call_observed :
  Forall (λ f, ∀ n m, observed (call firmware n f m) = Some (m, [])) stubs.*1.
Proof.
  repeat constructor; intros [|[|[|n]]] m; reflexivity.
Qed.

Lemma main_observed n m :
  ∃ c, call firmware n "main" m = Running c
       ∧ cont c ≠ []
       ∧ trace c `prefix_of` startup_writes
       ∧ same_elsewhere m (mem c).
Proof.
  destruct (decide (n < 5)%nat) as [Hn|Hn].
  - destruct n as [|[|[|[|[|n]]]]]; try lia; eexists;
      (split; [reflexivity|]); simpl; (split; [done|]).
    + split; [by exists startup_writes | done].
    + split; [by exists startup_writes | done].
    + split; [by exists startup_writes | done].
    + split; [by eexists [_; _] |].
      intros a Ha. rewrite !elem_of_cons in Ha.
      rewrite !lookup_insert_ne; naive_solver.
    + split; [by eexists [_] |].
      intros a Ha. rewrite !elem_of_cons in Ha.
      rewrite !lookup_insert_ne; naive_solver.
  - replace n with (5 + (n - 5))%nat by lia.
    unfold call, exec. rewrite run_add.
    change (run firmware 5 _) with (call firmware 5 "main" m).
    rewrite main_reaches_loop. unfold loop_entry.
    destruct (loop_spins firmware (n - 5) [] (startup_mem m) startup_writes)
      as (c & -> & Hm & Ht & Hc).
    exists c. split; [done|]. split; [by destruct Hc as [-> | ->]|].
    rewrite Hm, Ht. split; [done | apply startup_mem_elsewhere].
Qed.

(** ** The claims of the specification *)

(** C1.  [main] stores 0x70 to OSCCON, then 0x00 to ANSELA, then 0x00 to
    ANSELC, and all three stores are made before the loop is first
    reached: step by step from the call of [main], the trace grows by
    these three events in this order while the machine is not yet at the
    [while], and the fifth step lands on the [while] with the three
    stores already made. *)
Theorem main_startup_writes_before_loop (m : gmap N Z) :
  map (λ n, snapshot (call firmware n "main" m)) (seq 0 6) =
    [ Some (false, []);
      Some (false, []);
      Some (false, []);
      Some (false, [Write OSCCON 0x70]);
      Some (false, [Write OSCCON 0x70; Write ANSELA 0x00]);
      Some (true,  [Write OSCCON 0x70; Write ANSELA 0x00; Write ANSELC 0x00]) ]
  ∧ call firmware 5 "main" m = Running (loop_entry m)
  ∧ cont (loop_entry m) = [SWhile 1 (SBlock [])].
Proof. split_and!; reflexivity. Qed.

(** C2.  Each of the ten functions func_0674, func_0193, func_0124,
    func_0380, func_05EE, func_0264, func_0151, func_01CA, func_0746 and
    func_0118 is a no-op: from every memory, a call returns (three steps
    are enough, and more fuel changes nothing), the memory it returns is
    the one it was given, and it has stored to no register.  Called in
    the middle of other code, it hands over to the code after the call
    with the memory and the trace as they were. *)
Theorem stubs_are_noops (m : gmap N Z) (n : nat) :
  stubs.*1 = [ "func_0674"; "func_0193"; "func_0124"; "func_0380";
               "func_05EE"; "func_0264"; "func_0151"; "func_01CA";
               "func_0746"; "func_0118" ]%string
  ∧ Forall (λ f, call firmware (3 + n) f m = Returned m []) stubs.*1
  ∧ Forall (λ f, ∀ k t, run firmware 2 (Config (SCall f :: k) m t)
                        = Running (Config k m t)) stubs.*1.
Proof.
  split_and!; [reflexivity | apply stub_call_returns | by repeat constructor].
Qed.

(** C3.  [main] never returns: from every initial memory and after any
    number of steps the machine is still running, with code left to
    run. *)
Theorem main_never_returns (m : gmap N Z) (n : nat) :
  ∃ c, call firmware n "main" m = Running c ∧ cont c ≠ [].
Proof.
  destruct (main_observed n m) as (c & Hc & Hk & _). eauto.
Qed.

(** C4.  The only observable actions of the program are two register
    writes at startup, the oscillator configuration value 0x70 and the
    port analog-select registers cleared to 0x00: at every point of a
    run of [main] every store made so far is one of these two, the
    trace is a prefix of the startup stores and is all of them from the
    fifth step on, so the loop adds none; every other location of the
    data memory holds what it held at the start; a call of any of the
    ten other functions stores nothing at all; and no function body
    names any other register. *)
Theorem only_startup_writes (m : gmap N Z) (n : nat) :
  (∃ c, call firmware n "main" m = Running c
        ∧ Forall (λ e, oscillator_write e ∨ analog_select_clear e) (trace c)
        ∧ trace c `prefix_of` startup_writes
        ∧ same_elsewhere m (mem c))
  ∧ (∃ c, call firmware (5 + n) "main" m = Running c
          ∧ trace c = [Write OSCCON 0x70; Write ANSELA 0x00; Write ANSELC 0x00])
  ∧ Forall (λ f, observed (call firmware n f m) = Some (m, []))
      [ "func_0674"; "func_0193"; "func_0124"; "func_0380"; "func_05EE";
        "func_0264"; "func_0151"; "func_01CA"; "func_0746"; "func_0118" ]%string
  ∧ map (λ fb, (fb.1, stores fb.2)) firmware =
      [ ("func_0674", []); ("func_0193", []); ("func_0124", []);
        ("func_0380", []); ("func_05EE", []); ("func_0264", []);
        ("func_0151", []); ("func_01CA", []); ("func_0746", []);
        ("func_0118", []); ("main", [OSCCON; ANSELA; ANSELC]) ]%string.
Proof.
  assert (Hkinds : Forall (λ e, oscillator_write e ∨ analog_select_clear e)
                     startup_writes).
  { unfold startup_writes. rewrite !Forall_cons. split_and!.
    - by left.
    - right. exists ANSELA. split; [|done]. rewrite !elem_of_cons. auto.
    - right. exists ANSELC. split; [|done]. rewrite !elem_of_cons. auto.
    - constructor. }
  split_and!.
  - destruct (main_observed n m) as (c & Hc & _ & Ht & Hm).
    exists c. split_and!; try done.
    destruct Ht as [rest Ht]. rewrite Ht in Hkinds.
    by apply Forall_app in Hkinds as [Hpre _].
  - unfold call, exec. rewrite run_add.
    change (run firmware 5 _) with (call firmware 5 "main" m).
    rewrite main_reaches_loop. unfold loop_entry.
    destruct (loop_spins firmware n [] (startup_mem m) startup_writes)
      as (c & -> & _ & Ht & _).
    by exists c.
  - eapply Forall_impl; [apply stub_call_observed|]. simpl. auto.
  - reflexivity.
Qed.

(** C5.  Five steps after its call [main] is at the top of its loop with
    OSCCON = 0x70, ANSELA = 0x00 and ANSELC = 0x00.  One iteration of the
    loop (the test, then the empty body) leads from that configuration
    back to itself, and every configuration reached from it has the same
    memory and the same trace, so the three registers keep these values
    for ever. *)
Theorem loop_preserves_startup_state (m : gmap N Z) (n : nat) :
  call firmware 5 "main" m = Running (loop_entry m)
  ∧ at_while (loop_entry m) = true
  ∧ initialized (mem (loop_entry m))
  ∧ run firmware 2 (loop_entry m) = Running (loop_entry m)
  ∧ nsteps (sstep firmware) 2 (loop_entry m) (loop_entry m)
  ∧ ∃ c, run firmware n (loop_entry m) = Running c
         ∧ mem c = mem (loop_entry m)
         ∧ trace c = trace (loop_entry m)
         ∧ initialized (mem c).
Proof.
  split_and!; try reflexivity.
  - apply startup_mem_initialized.
  - by apply run_nsteps.
  - destruct (loop_spins firmware n [] (startup_mem m) startup_writes)
      as (c & Hc & Hm & Ht & _).
    exists c. split_and!; try done.
    rewrite Hm. apply startup_mem_initialized.
Qed.

(** C6.  The ten functions are disconnected leaves: no function of the
    file, [main] included, calls anything, so none of the ten is called
    and none of them calls another function; and the run of [main] is
    the same under every program that defines [main] as the file does,
    whatever it says about the ten. *)
Theorem stubs_disconnected (p' : program)
    (Hmain : find_fun p' "main" = Some main) (n : nat) (m : gmap N Z) :
  map (λ fb, (fb.1, calls fb.2)) firmware =
    [ ("func_0674", []); ("func_0193", []); ("func_0124", []);
      ("func_0380", []); ("func_05EE", []); ("func_0264", []);
      ("func_0151", []); ("func_01CA", []); ("func_0746", []);
      ("func_0118", []); ("main", []) ]%string
  ∧ call p' n "main" m = call firmware n "main" m.
Proof.
  split; [reflexivity|].
  destruct n as [|n]; [reflexivity|].
  unfold call, exec. simpl. unfold step. simpl. rewrite Hmain.
  apply run_call_free. simpl. by repeat constructor.
Qed.

(** C7.  Nothing in the program can fail.  A call of any of the eleven
    functions of the file, each by its name, never gives a failure,
    whatever the memory and the fuel; each of the ten empty functions
    returns normally; the initialization of [main] (lines 80 to 82) run
    on its own returns normally; and no function contains a call that
    could name an undefined function. *)
Theorem no_operation_fails (m : gmap N Z) (n : nat) :
  Forall (λ f, is_Some (observed (call firmware n f m)))
    [ "func_0674"; "func_0193"; "func_0124"; "func_0380"; "func_05EE";
      "func_0264"; "func_0151"; "func_01CA"; "func_0746"; "func_0118";
      "main" ]%string
  ∧ Forall (λ f, call firmware (3 + n) f m = Returned m [])
      [ "func_0674"; "func_0193"; "func_0124"; "func_0380"; "func_05EE";
        "func_0264"; "func_0151"; "func_01CA"; "func_0746"; "func_0118" ]%string
  ∧ exec firmware (5 + n) (SBlock main_init) m
      = Returned (startup_mem m) startup_writes
  ∧ firmware.*1 =
      [ "func_0674"; "func_0193"; "func_0124"; "func_0380"; "func_05EE";
        "func_0264"; "func_0151"; "func_01CA"; "func_0746"; "func_0118";
        "main" ]%string
  ∧ Forall (λ fb, Forall (λ g, is_Some (find_fun firmware g)) (calls fb.2))
      firmware.
Proof.
  split_and!.
  - change (Forall (λ f, is_Some (observed (call firmware n f m)))
              (stubs.*1 ++ ["main"%string])).
    apply Forall_app. split.
    + eapply Forall_impl; [apply stub_call_observed|].
      simpl. intros f ->. eauto.
    + repeat constructor.
      destruct (main_observed n m) as (c & -> & _). simpl. eauto.
  - apply stub_call_returns.
  - reflexivity.
  - reflexivity.
  - by repeat constructor.
Qed.

(** C9.  The ten functions are idempotent and commute pairwise: for
    functions f and g among the ten and every memory s, f(s) = s,
    g(s) = s, f(f(s)) = f(s) and f(g(s)) = g(f(s)). *)
Theorem stubs_idempotent_commute (f g : string)
    (Hf : f ∈ stubs.*1) (Hg : g ∈ stubs.*1) (n : nat) (s : gmap N Z) :
  denote firmware (3 + n) f s = Some s
  ∧ denote firmware (3 + n) g s = Some s
  ∧ denote firmware (3 + n) f s ≫= denote firmware (3 + n) f
      = denote firmware (3 + n) f s
  ∧ denote firmware (3 + n) g s ≫= denote firmware (3 + n) f
      = denote firmware (3 + n) f s ≫= denote firmware (3 + n) g.
Proof.
  pose proof (stub_call_returns n s) as Hall.
  rewrite Forall_forall in Hall.
  assert (Hfs : denote firmware (3 + n) f s = Some s)
    by (unfold denote; by rewrite (Hall f Hf)).
  assert (Hgs : denote firmware (3 + n) g s = Some s)
    by (unfold denote; by rewrite (Hall g Hg)).
  split_and!; try done.
  - rewrite Hfs. exact Hfs.
  - rewrite Hfs, Hgs. exact (eq_trans Hfs (eq_sym Hgs)).
Qed.

(** C10.  What OSCCON, ANSELA and ANSELC hold after the initialization
    of [main] does not depend on the initial memory: run from any two
    memories, lines 80 to 82 return memories that both hold 0x70, 0x00
    and 0x00 there, and so do the memories of any two runs of [main]
    itself once the loop has been reached. *)
Theorem startup_values_independent (m1 m2 : gmap N Z) (n1 n2 : nat) :
  ∃ m1' m2' t,
    exec firmware 5 (SBlock main_init) m1 = Returned m1' t
    ∧ exec firmware 5 (SBlock main_init) m2 = Returned m2' t
    ∧ initialized m1' ∧ initialized m2'
    ∧ m1' !! OSCCON = m2' !! OSCCON
    ∧ m1' !! ANSELA = m2' !! ANSELA
    ∧ m1' !! ANSELC = m2' !! ANSELC
    ∧ ∃ c1 c2,
        call firmware (5 + n1) "main" m1 = Running c1
        ∧ call firmware (5 + n2) "main" m2 = Running c2
        ∧ mem c1 = m1' ∧ mem c2 = m2'.
Proof.
  exists (startup_mem m1), (startup_mem m2), startup_writes.
  pose proof (startup_mem_initialized m1) as (Ha1 & Hb1 & Hc1).
  pose proof (startup_mem_initialized m2) as (Ha2 & Hb2 & Hc2).
  split_and!; try reflexivity; try done; try congruence.
  unfold call, exec. rewrite !run_add.
  change (run firmware 5 (Config [SCall "main"] m1 []))
    with (call firmware 5 "main" m1).
  change (run firmware 5 (Config [SCall "main"] m2 []))
    with (call firmware 5 "main" m2).
  rewrite !main_reaches_loop. unfold loop_entry.
  destruct (loop_spins firmware n1 [] (startup_mem m1) startup_writes)
    as (c1 & -> & Hm1 & _).
  destruct (loop_spins firmware n2 [] (startup_mem m2) startup_writes)
    as (c2 & -> & Hm2 & _).
  by exists c1, c2.
Qed.

End FirmwareProperties.

(** ** The claims on the PIC16F1704 *)

Lemma stubs_disconnected_witness :
  find_fun patched "main" = Some main
  ∧ call patched 7 "main" ∅ = call firmware 7 "main" ∅.
Proof.
  split; [reflexivity|].
  apply (stubs_disconnected patched eq_refl 7 ∅).
Defined.

Lemma loop_preserves_startup_state_witness :
  initialized (mem (loop_entry {[ OSCCON := 0xFF ]}))
  ∧ run firmware 2 (loop_entry {[ OSCCON := 0xFF ]})
    = Running (loop_entry {[ OSCCON := 0xFF ]}).
Proof.
  pose proof (loop_preserves_startup_state {[ OSCCON := 0xFF ]} 7)
    as (_ & _ & Hinit & Hfix & _).
  split; [exact Hinit | exact Hfix].
Defined.

Lemma startup_values_independent_witness :
  ∃ m1' m2' t,
    exec firmware 5 (SBlock main_init) ∅ = Returned m1' t
    ∧ exec firmware 5 (SBlock main_init)
        {[ OSCCON := 0xFF; ANSELA := 0x3F ]} = Returned m2' t
    ∧ initialized m1' ∧ initialized m2'
    ∧ m1' !! OSCCON = m2' !! OSCCON
    ∧ m1' !! ANSELA = m2' !! ANSELA
    ∧ m1' !! ANSELC = m2' !! ANSELC
    ∧ ∃ c1 c2,
        call firmware (5 + 0) "main" ∅ = Running c1
        ∧ call firmware (5 + 3) "main"
            {[ OSCCON := 0xFF; ANSELA := 0x3F ]} = Running c2
        ∧ mem c1 = m1' ∧ mem c2 = m2'.
Proof.
  exact (startup_values_independent ∅ {[ OSCCON := 0xFF; ANSELA := 0x3F ]} 0 3).
Defined.

Lemma stubs_idempotent_commute_witness :
  "func_05EE"%string ∈ stubs.*1 ∧ "func_0118"%string ∈ stubs.*1
  ∧ denote firmware 3 "func_0118" {[ OSCCON := 0x70 ]}
      ≫= denote firmware 3 "func_05EE"
    = denote firmware 3 "func_05EE" {[ OSCCON := 0x70 ]}
      ≫= denote firmware 3 "func_0118".
Proof.
  assert (Hf : "func_05EE"%string ∈ stubs.*1)
    by (apply (bool_decide_unpack _); vm_compute; exact I).
  assert (Hg : "func_0118"%string ∈ stubs.*1)
    by (apply (bool_decide_unpack _); vm_compute; exact I).
  split_and!; [exact Hf | exact Hg |].
  apply (stubs_idempotent_commute "func_05EE" "func_0118" Hf Hg 0
           {[ OSCCON := 0x70 ]}).
Defined.

(** * Further properties of the source *)

(** ** The machine in general *)

Lemma loop_spins_exact p n K m t :
  run p n (Config (main_loop :: K) m t)
  = Running (Config (loop_phase n K) m t).
Proof.
  induction n as [n IH] using lt_wf_ind.
  destruct n as [|[|n]]; [reflexivity..|].
  change (S (S n)) with (2 + n)%nat.
  rewrite run_add, loop_iteration, IH by lia. done.
Qed.

(** ** The firmware *)

Section FurtherProperties.
Context `{DeviceHeader}.

Lemma stub_call_context :
  Forall (λ f, ∀ k m t, run firmware 2 (Config (SCall f :: k) m t)
                        = Running (Config k m t)) stubs.*1.
Proof. by repeat constructor. Qed.

Lemma startup_mem_twice m : startup_mem (startup_mem m) = startup_mem m.
Proof.
  apply map_eq. intros a. unfold startup_mem.
  rewrite !lookup_insert. by repeat case_decide.
Qed.

(** X1.  Any sequence of calls of the ten empty functions is a no-op,
    wherever it stands: two steps per call lead to the code after the
    sequence with the memory and the trace untouched, and the sequence
    run on its own returns the memory it was given. *)
Theorem stub_call_sequence_noop (l : list string)
    (Hl : Forall (λ f, f ∈ stubs.*1) l)
    (k : list stmt) (m : gmap N Z) (t : list event) (n : nat) :
  run firmware (2 * length l) (Config ((SCall <$> l) ++ k) m t)
    = Running (Config k m t)
  ∧ exec firmware (2 * length l + 2 + n) (SBlock (SCall <$> l)) m
    = Returned m [].
Proof.
  assert (Hseq : ∀ k' t', run firmware (2 * length l)
                            (Config ((SCall <$> l) ++ k') m t')
                          = Running (Config k' m t')).
  { pose proof stub_call_context as Hctx. rewrite Forall_forall in Hctx.
    induction Hl as [|f l Hf Hl IH]; intros k' t'; [done|].
    replace (2 * length (f :: l))%nat with (2 + 2 * length l)%nat
      by (simpl; lia).
    rewrite run_add. rewrite fmap_cons, <- app_comm_cons.
    rewrite (Hctx f Hf). apply IH. }
  split; [apply Hseq|].
  unfold exec.
  replace (2 * length l + 2 + n)%nat
    with (1 + (2 * length l + (1 + n)))%nat by lia.
  rewrite run_add. simpl run at 2. unfold step. simpl.
  by rewrite run_add, Hseq.
Qed.

(** X2.  From its fifth step on, the run of [main] alternates between
    two configurations, the loop test on even steps and the empty body
    on odd ones, both with the memory and the trace of the loop entry;
    the run has period two. *)
Theorem main_run_closed_form (m : gmap N Z) (n : nat) :
  call firmware (5 + n) "main" m
    = Running (Config (loop_phase n []) (startup_mem m) startup_writes)
  ∧ call firmware (5 + n + 2) "main" m = call firmware (5 + n) "main" m.
Proof.
  assert (Hform : ∀ i, call firmware (5 + i) "main" m
            = Running (Config (loop_phase i []) (startup_mem m) startup_writes)).
  { intros i. unfold call, exec. rewrite run_add.
    change (run firmware 5 _) with (call firmware 5 "main" m).
    rewrite main_reaches_loop. apply loop_spins_exact. }
  split; [apply Hform|].
  replace (5 + n + 2)%nat with (5 + S (S n))%nat by lia.
  by rewrite !Hform.
Qed.

(** X3.  A call of [main] never hands over to the code after it, in any
    calling context: whatever code [k] is waiting, whatever the memory
    and the earlier trace, after any number of steps the machine is
    still running inside [main] with [k] untouched behind it, the trace
    is the earlier one followed by a prefix of the three startup stores,
    and the memory differs from the initial one at most in the three
    registers. *)
Theorem main_never_hands_over (k : list stmt) (m : gmap N Z)
    (t : list event) (n : nat) :
  ∃ c ws,
    run firmware n (Config (SCall "main" :: k) m t) = Running c
    ∧ ws `prefix_of` startup_writes
    ∧ trace c = t ++ ws
    ∧ same_elsewhere m (mem c)
    ∧ k `suffix_of` cont c
    ∧ (length k < length (cont c))%nat.
Proof.
  destruct (decide (n < 5)%nat) as [Hn|Hn].
  - destruct n as [|[|[|[|[|n]]]]]; try lia.
    + exists (Config (SCall "main" :: k) m t), [].
      split_and!; simpl; try done; try lia.
      * by exists startup_writes.
      * by rewrite app_nil_r.
      * by exists [SCall "main"].
    + exists (Config (main :: k) m t), [].
      split_and!; simpl; try done; try lia.
      * by exists startup_writes.
      * by rewrite app_nil_r.
      * by exists [main].
    + exists (Config (main_init ++ [main_loop] ++ k) m t), [].
      split_and!; simpl; try done; try lia.
      * by exists startup_writes.
      * by rewrite app_nil_r.
      * by eexists [_; _; _; _].
    + eexists _, [Write OSCCON 0x70].
      split_and!; [reflexivity | by eexists [_; _] | done | | | ]; simpl.
      * intros a Ha. rewrite !elem_of_cons in Ha.
        rewrite !lookup_insert_ne; naive_solver.
      * by eexists [_; _; _].
      * lia.
    + eexists _, [Write OSCCON 0x70; Write ANSELA 0x00].
      split_and!; [reflexivity | by eexists [_] | | | | ]; simpl.
      * by rewrite <- !app_assoc.
      * intros a Ha. rewrite !elem_of_cons in Ha.
        rewrite !lookup_insert_ne; naive_solver.
      * by eexists [_; _].
      * lia.
  - replace n with (5 + (n - 5))%nat by lia.
    rewrite run_add.
    assert (Hfive : run firmware 5 (Config (SCall "main" :: k) m t)
              = Running (Config (main_loop :: k) (startup_mem m)
                                (t ++ startup_writes))).
    { simpl. unfold step. simpl. by rewrite <- !app_assoc. }
    rewrite Hfive, loop_spins_exact.
    eexists _, startup_writes.
    split_and!; [reflexivity | done | done | apply startup_mem_elsewhere | | ];
      unfold loop_phase; simpl; destruct (Nat.even (n - 5)); simpl; try lia.
    + by exists [main_loop].
    + by eexists [_; _].
Qed.

(** X4.  The initialization of [main] is idempotent on the memory:
    lines 80 to 82 run once set up the startup memory, and run on the
    memory they have produced, or twice in a row, they give the same
    memory as run once (the trace shows every store); [main] entered
    again from the memory it has set up reaches its loop in the same
    configuration. *)
Theorem startup_idempotent (m : gmap N Z) (n : nat) :
  exec firmware (5 + n) (SBlock main_init) m
    = Returned (startup_mem m) startup_writes
  ∧ exec firmware (5 + n) (SBlock main_init) (startup_mem m)
    = Returned (startup_mem m) startup_writes
  ∧ exec firmware (8 + n) (SBlock (main_init ++ main_init)) m
    = Returned (startup_mem m) (startup_writes ++ startup_writes)
  ∧ call firmware 5 "main" (startup_mem m) = Running (loop_entry m).
Proof.
  split_and!.
  - reflexivity.
  - unfold exec. simpl. unfold step. simpl.
    change (Returned (startup_mem (startup_mem m)) startup_writes
            = Returned (startup_mem m) startup_writes).
    by rewrite startup_mem_twice.
  - unfold exec. simpl. unfold step. simpl.
    change (Returned (startup_mem (startup_mem m))
                     (startup_writes ++ startup_writes)
            = Returned (startup_mem m) (startup_writes ++ startup_writes)).
    by rewrite startup_mem_twice.
  - rewrite main_reaches_loop. unfold loop_entry.
    by rewrite startup_mem_twice.
Qed.

(** X5.  The order of the three startup stores does not matter to the
    memory: lines 80 to 82 taken in any order return the memory that the
    source's order returns, and the trace holds the same three stores in
    the order taken. *)
Theorem startup_order_irrelevant (l : list stmt) (Hl : l ≡ₚ main_init)
    (m : gmap N Z) (n : nat) :
  exec firmware (5 + n) (SBlock l) m
    = Returned (startup_mem m) (literal_stores l)
  ∧ literal_stores l ≡ₚ startup_writes
  ∧ literal_stores main_init = startup_writes.
Proof.
  destruct sfr_ne as (Hoa & Hoc & Hac).
  assert (Hev : literal_stores l ≡ₚ startup_writes)
    by (unfold literal_stores; rewrite Hl; reflexivity).
  split_and!; [|exact Hev|reflexivity].
  symmetry in Hl. apply permutations_Permutation in Hl.
  cbn in Hl. rewrite !elem_of_cons, elem_of_nil in Hl.
  assert (Hmem : ∀ m1 m2 : gmap N Z,
            (∀ a, m1 !! a = m2 !! a) → ∀ t, Returned m1 t = Returned m2 t).
  { intros m1 m2 Heq t. f_equal. by apply map_eq. }
  destruct Hl as [-> | [-> | [-> | [-> | [-> | [-> | []]]]]]];
    unfold exec; simpl; unfold step; simpl; apply Hmem;
    intros a; unfold startup_mem; rewrite !lookup_insert;
    repeat case_decide; first [congruence | reflexivity].
Qed.

End FurtherProperties.

(** ** Further properties on the PIC16F1704 *)

Lemma stub_call_sequence_noop_witness :
  Forall (λ f, f ∈ stubs.*1) ["func_0674"; "func_0118"; "func_0674"]%string
  ∧ run firmware 6
      (Config ((SCall <$> ["func_0674"; "func_0118"; "func_0674"]%string)
               ++ [main_loop])
              {[ OSCCON := 0x70 ]} [Write OSCCON 0x70])
    = Running (Config [main_loop] {[ OSCCON := 0x70 ]} [Write OSCCON 0x70])
  ∧ exec firmware 8
      (SBlock (SCall <$> ["func_0674"; "func_0118"; "func_0674"]%string))
      {[ OSCCON := 0x70 ]}
    = Returned {[ OSCCON := 0x70 ]} [].
Proof.
  assert (Hl : Forall (λ f, f ∈ stubs.*1)
                 ["func_0674"; "func_0118"; "func_0674"]%string)
    by (apply (bool_decide_unpack _); vm_compute; exact I).
  split; [exact Hl|].
  exact (stub_call_sequence_noop _ Hl [main_loop] {[ OSCCON := 0x70 ]}
           [Write OSCCON 0x70] 0).
Defined.

Lemma startup_order_irrelevant_witness :
  [ANSELC ::= 0x00; OSCCON ::= 0x70; ANSELA ::= 0x00] ≡ₚ main_init
  ∧ exec firmware 5
      (SBlock [ANSELC ::= 0x00; OSCCON ::= 0x70; ANSELA ::= 0x00])
      {[ OSCCON := 0xFF ]}
    = Returned (startup_mem {[ OSCCON := 0xFF ]})
               [Write ANSELC 0x00; Write OSCCON 0x70; Write ANSELA 0x00]
  ∧ [Write ANSELC 0x00; Write OSCCON 0x70; Write ANSELA 0x00]
    ≡ₚ startup_writes.
Proof.
  assert (Hl : [ANSELC ::= 0x00; OSCCON ::= 0x70; ANSELA ::= 0x00]
               ≡ₚ main_init).
  { etrans; [apply perm_swap | apply perm_skip, perm_swap]. }
  destruct (startup_order_irrelevant _ Hl {[ OSCCON := 0xFF ]} 0)
    as (Hexec & Hperm & _).
  split_and!; [exact Hl | exact Hexec | exact Hperm].
Defined.
